(** * CMC Genesys item size analysis: the classification and summary engine

    A shallow embedding of [Genesys_app.py] (the block run by the
    "Process File" button, and [pick_cardboard]) together with the
    properties of its row classification and of its summary.

    Numbers are binary64 floats, the dtype [pd.to_numeric] gives a column
    that holds a fractional or a missing entry; NaN is pandas' marker of a
    missing value.  Series carry their index labels, exceptions are values
    of an error monad. *)

From Stdlib Require Import ZArith List String Bool Floats Lia DecimalString.
From Stdlib Require Ascii.
Import ListNotations.

(** ** Python scalars and exceptions *)

Module Py.

Inductive exn : Type :=
| KeyError (key : string)
| ZeroDivisionError.

Definition result (A : Type) : Type := (exn + A)%type.

Definition ret {A} (a : A) : result A := inr a.
Definition raise {A} (e : exn) : result A := inl e.
Definition bind {A B} (m : result A) (k : A -> result B) : result B :=
  match m with
  | inl e => inl e
  | inr a => k a
  end.


(** [float(n)] for a Python int: the nearest binary64 value. *)
Definition float_of_Z (n : Z) : float :=
  SF2Prim (binary_normalize prec emax n 0 false).

(** [str(n)] for a Python int. *)
Definition str (n : Z) : string := NilZero.string_of_int (Z.to_int n).

(** [a / b] on Python ints: true division, [ZeroDivisionError] on a zero
    divisor.  The operands here are row counts, far below [2^53], where
    the quotient is the float quotient of the converted operands. *)
Definition truediv (a b : Z) : result float :=
  if (b =? 0)%Z then raise ZeroDivisionError
  else ret (float_of_Z a / float_of_Z b)%float.

(** Truth value of an int, as tested by [x if total else y]. *)
Definition truthy (n : Z) : bool := negb (n =? 0)%Z.

(** [n / d] rounded half to even to an integer, for [0 <= n], [0 < d]. *)
Definition div_half_even (n d : Z) : Z :=
  let q := (n / d)%Z in
  let r := (n mod d)%Z in
  match (2 * r ?= d)%Z with
  | Lt => q
  | Gt => (q + 1)%Z
  | Eq => if Z.even q then q else (q + 1)%Z
  end.

(** [round(x, ndigits)] on a float, for [0 <= ndigits]: the exact value of
    [x] is rounded half to even to [ndigits] decimals, and the float
    nearest to that decimal is returned; NaN, the infinities, the zeros
    and integral values round to themselves. *)
Definition round (x : float) (ndigits : Z) : float :=
  match Prim2SF x with
  | S754_finite s m e =>
      if (0 <=? e)%Z then x
      else
        let scale := (10 ^ ndigits)%Z in
        match div_half_even (Zpos m * scale) (2 ^ (- e)) with
        | Zpos n =>
            SF2Prim (SFdiv prec emax (S754_finite s n 0)
                                     (S754_finite false (Z.to_pos scale) 0))
        | _ => SF2Prim (S754_zero s)
        end
  | _ => x
  end.

End Py.

Notation "x <- m ;; k" := (Py.bind m (fun x => k))
  (at level 61, m at next level, right associativity).

Open Scope float_scope.

(** ** pandas: Series and DataFrame *)

Module Pd.

(** A Series: its entries in order, each with its index label. *)
Definition Series (A : Type) : Type := list (nat * A).

Definition index {A} (s : Series A) : list nat := map fst s.
Definition values {A} (s : Series A) : list A := map snd s.
Definition len {A} (s : Series A) : nat := List.length s.

(** [pd.Series(l)]: the default index 0, 1, ... *)
Definition of_list {A} (l : list A) : Series A :=
  combine (seq 0 (List.length l)) l.

(** [pd.Series([x] * n)]. *)
Definition full {A} (n : nat) (x : A) : Series A := of_list (repeat x n).

(** [pd.Series([x] * len(s), index=s.index)]. *)
Definition full_like {A B} (s : Series A) (x : B) : Series B :=
  map (fun e => (fst e, x)) s.

(** Elementwise unary operation; the index is kept. *)
Definition smap {A B} (f : A -> B) (s : Series A) : Series B :=
  map (fun e => (fst e, f (snd e))) s.

(** Elementwise binary operation of two Series that carry the same index,
    which pandas then pairs position by position.  Every binary operation
    of the program is between Series cut from one table by one mask. *)
Definition szip {A B C} (f : A -> B -> C) (a : Series A) (b : Series B)
  : Series C :=
  map (fun e => (fst (fst e), f (snd (fst e)) (snd (snd e)))) (combine a b).

(** [s.loc[i]] for a label. *)
Fixpoint lookup {A} (i : nat) (s : Series A) : option A :=
  match s with
  | [] => None
  | (j, x) :: s' => if Nat.eqb i j then Some x else lookup i s'
  end.

(** [s.loc[mask]]: the entries whose mask entry is [True], with their
    labels (the mask has the index of [s]). *)
Definition loc_get {A} (s : Series A) (mask : Series bool) : Series A :=
  map fst (filter (fun e => snd (snd e)) (combine s mask)).

(** [s.loc[mask] = v] for a scalar [v]. *)
Definition loc_set_scalar {A} (s : Series A) (mask : Series bool) (v : A)
  : Series A :=
  szip (fun old (b : bool) => if b then v else old) s mask.

(** [s.loc[mask] = src] for a Series [src]: each selected entry takes the
    entry of [src] that has its label.  [src] is here always the result of
    an elementwise computation on [x.loc[mask]], so that every selected
    label is found; an entry whose label were absent is left as it is. *)
Definition loc_set_series {A} (s : Series A) (mask : Series bool)
           (src : Series A) : Series A :=
  map (fun e =>
         let '((i, old), (_, b)) := e in
         (i, if (b : bool)
             then match lookup i src with Some v => v | None => old end
             else old))
      (combine s mask).

(** [s.where(cond, other)]: keep where [cond], else [other]. *)
Definition where_ {A} (s : Series A) (cond : Series bool) (other : A)
  : Series A :=
  szip (fun x (c : bool) => if c then x else other) s cond.

(** [s.isna()] on a float Series. *)
Definition isna (s : Series float) : Series bool := smap PrimFloat.is_nan s.

(** [pd.DataFrame({...}).any(axis=1)] on boolean columns: per row, whether
    some column holds [True]. *)
Fixpoint any_axis1 (cols : list (Series bool)) : Series bool :=
  match cols with
  | [] => []
  | [c] => c
  | c :: cs => szip orb c (any_axis1 cs)
  end.

(** [int(s.sum())] on a boolean Series. *)
Definition sum (s : Series bool) : Z :=
  Z.of_nat (List.length (filter (fun b : bool => b) (values s))).

(** [pd.NA] put into a float Series: NaN. *)
Definition NA : float := nan.

(** A cell of an uploaded table as [read_csv] / [read_excel] leave it: a
    number or a piece of text.  pandas keeps a missing cell as NaN. *)
Inductive cell : Type :=
| Num (x : float)
| Text (s : string).

Definition missing : cell := Num nan.

(** The uploaded table: column names, and the rows in order.  A row
    shorter than the header is filled with missing cells by the reader. *)
Record DataFrame : Type := {
  columns : list string;
  rows : list (list cell)
}.

Fixpoint position (c : string) (cols : list string) : option nat :=
  match cols with
  | [] => None
  | c' :: cols' =>
      if String.eqb c c' then Some 0%nat
      else option_map S (position c cols')
  end.

(** [df[c]]: the column named [c], [KeyError] when there is none. *)
Definition getitem (df : DataFrame) (c : string) : Py.result (Series cell) :=
  match position c (columns df) with
  | None => Py.raise (Py.KeyError c)
  | Some j => Py.ret (of_list (map (fun r => nth j r missing) (rows df)))
  end.

(** [len(df)]. *)
Definition df_len (df : DataFrame) : nat := List.length (rows df).

End Pd.

Import Pd.

(** ** The program *)

Definition MAX_WIDTH : Z := 22.
Definition MAX_LENGTH : Z := 15.
Definition MAX_HEIGHT : Z := 11.

Definition CARDBOARD_OPTIONS : list Z := [23; 39]%Z.

(** [CARDBOARD_OPTIONS[k]], for the two positions the program reads. *)
Definition option_at (k : nat) : Z := nth k CARDBOARD_OPTIONS 0%Z.

(** [series <= n] against a Python int. *)
Definition sle (s : Series float) (n : Z) : Series bool :=
  smap (fun x => x <=? Py.float_of_Z n) s.

Definition sand : Series bool -> Series bool -> Series bool := szip andb.
Definition snot : Series bool -> Series bool := smap negb.

Definition pick_cardboard (width_series height_series : Series float)
  : Series string :=
  let wrap := szip PrimFloat.add width_series height_series in
  let result := full_like wrap "No Fit"%string in
  let result :=
    loc_set_scalar result (sle wrap (option_at 1)) (Py.str (option_at 1)) in
  let result :=
    loc_set_scalar result (sle wrap (option_at 0)) (Py.str (option_at 0)) in
  result.

(** The output table [df_out], column by column. *)
Record OutFrame : Type := {
  Item_ID : Series cell;
  Height : Series float;
  Width : Series float;
  Length : Series float;
  Volume : Series float;
  Status : Series string;
  Optimal_Cardboard_Width : Series string
}.

(** [len(df_out)]: the frame is built from Series that share one index. *)
Definition out_len (o : OutFrame) : nat := len (Item_ID o).

(** The "Value" column of [summary_df]. *)
Record Summary : Type := {
  Total_Items : Z;
  OK_Count : Z;
  OK_pct : float;
  No_OK_Count : Z;
  No_OK_pct : float
}.

Record Output : Type := {
  df_out : OutFrame;
  total : Z;
  ok_count : Z;
  no_ok_count : Z;
  ok_pct : float;
  no_ok_pct : float;
  summary_df : Summary
}.

Section Process.

(** pandas' reading of a text cell as a number ([None] when the text is
    not one); the parser is the library's, not the program's. *)
Variable parse_text : string -> option float.

(** [pd.to_numeric(..., errors="coerce")] on one cell: what cannot be
    read as a number becomes NaN. *)
Definition coerce (c : cell) : float :=
  match c with
  | Num x => x
  | Text s => match parse_text s with Some x => x | None => nan end
  end.

Definition to_numeric (s : Series cell) : Series float := smap coerce s.

(** [pd.DataFrame({"Height": height, "Width": width, "Length": length})
    .isna().any(axis=1)], the [invalid] of the program. *)
Definition invalid_rows (height width length : Series float) : Series bool :=
  any_axis1 [isna height; isna width; isna length].

(** [(count / total * 100) if total else 0.0]. *)
Definition percentage (count total : Z) : Py.result float :=
  if Py.truthy total
  then q <- Py.truediv count total ;; Py.ret (q * Py.float_of_Z 100)
  else Py.ret 0.

(** The body of [if st.button("Process File"):], up to [summary_df]. *)
Definition process (df : DataFrame)
           (item_col height_col width_col length_col : string)
  : Py.result Output :=
  item_id <- getitem df item_col ;;
  height_raw <- getitem df height_col ;;
  width_raw <- getitem df width_col ;;
  length_raw <- getitem df length_col ;;
  let height := to_numeric height_raw in
  let width := to_numeric width_raw in
  let length := to_numeric length_raw in
  let invalid := invalid_rows height width length in
  let volume := szip PrimFloat.mul (szip PrimFloat.mul height width) length in
  let volume := where_ volume (snot invalid) NA in
  let fits_machine :=
    sand (sand (sle height MAX_HEIGHT) (sle width MAX_WIDTH))
         (sle length MAX_LENGTH) in
  let status := full (df_len df) "No OK"%string in
  let status :=
    loc_set_scalar status (sand fits_machine (snot invalid)) "OK"%string in
  let cardboard_width := full (df_len df) "No Fit"%string in
  let valid_for_cardboard := snot (any_axis1 [isna height; isna width]) in
  let cardboard_width :=
    loc_set_series cardboard_width valid_for_cardboard
      (pick_cardboard (loc_get width valid_for_cardboard)
                      (loc_get height valid_for_cardboard)) in
  let out := {| Item_ID := item_id; Height := height; Width := width;
                Length := length; Volume := volume; Status := status;
                Optimal_Cardboard_Width := cardboard_width |} in
  let total := Z.of_nat (out_len out) in
  let ok_count := sum (smap (String.eqb "OK") (Status out)) in
  let no_ok_count := sum (smap (String.eqb "No OK") (Status out)) in
  ok_pct <- percentage ok_count total ;;
  no_ok_pct <- percentage no_ok_count total ;;
  Py.ret {| df_out := out; total := total; ok_count := ok_count;
            no_ok_count := no_ok_count; ok_pct := ok_pct;
            no_ok_pct := no_ok_pct;
            summary_df := {| Total_Items := total;
                             OK_Count := ok_count;
                             OK_pct := Py.round ok_pct 2;
                             No_OK_Count := no_ok_count;
                             No_OK_pct := Py.round no_ok_pct 2 |} |}.

End Process.

(** ** Row-at-a-time reading of the classification

    What the vectorised code is compared with: each quantity as a function
    of one row's three dimensions. *)

Definition notna (x : float) : bool := negb (PrimFloat.is_nan x).

Definition valid_row (h w l : float) : bool := notna h && notna w && notna l.

Definition fits_row (h w l : float) : bool :=
  (h <=? Py.float_of_Z MAX_HEIGHT) && (w <=? Py.float_of_Z MAX_WIDTH)
  && (l <=? Py.float_of_Z MAX_LENGTH).

Definition status_row (h w l : float) : string :=
  if fits_row h w l && valid_row h w l then "OK"%string else "No OK"%string.

Definition volume_row (h w l : float) : float :=
  if valid_row h w l then h * w * l else nan.

(** Ordered evaluation, first match wins: the first width of the list that
    is at least [wrap]. *)
Definition first_fit (widths : list Z) (wrap : float) : option Z :=
  find (fun c => wrap <=? Py.float_of_Z c) widths.

Definition bucket_label (o : option Z) : string :=
  match o with
  | Some c => Py.str c
  | None => "No Fit"%string
  end.

Definition bucket_of_wrap (wrap : float) : string :=
  bucket_label (first_fit CARDBOARD_OPTIONS wrap).

Definition cardboard_row (h w : float) : string :=
  if notna h && notna w then bucket_of_wrap (w + h) else "No Fit"%string.

(** The rule of the specification, section 4.2, for a list of widths in
    ascending order: the widths are tried in order and the first one that
    takes the wrap gives the bucket. *)
Fixpoint ordered_bucket (widths : list Z) (wrap : float) : string :=
  match widths with
  | [] => "No Fit"%string
  | c :: rest =>
      if wrap <=? Py.float_of_Z c then Py.str c else ordered_bucket rest wrap
  end.

(** A row-at-a-time implementation of the cardboard choice. *)
Definition pick_cardboard_rows (widths : list Z)
           (width_series height_series : Series float) : Series string :=
  szip (fun w h => ordered_bucket widths (w + h)) width_series height_series.


Section RowwiseDefinitions.

Variable parse_text : string -> option float.
Variable df : DataFrame.
Variables item_col height_col width_col length_col : string.

(** The cell of row [r] under column [c]. *)
Definition cell_of (c : string) (r : list cell) : cell :=
  match position c (columns df) with
  | Some j => nth j r missing
  | None => missing
  end.

(** The dimension of row [r] under column [c], after [to_numeric]. *)
Definition dim (c : string) (r : list cell) : float :=
  coerce parse_text (cell_of c r).

Definition table : Series (list cell) := of_list (rows df).

(** [df_out] computed one row at a time. *)
Definition rowwise_frame : OutFrame :=
  let H := dim height_col in
  let W := dim width_col in
  let L := dim length_col in
  {| Item_ID := smap (cell_of item_col) table;
     Height := smap H table;
     Width := smap W table;
     Length := smap L table;
     Volume := smap (fun r => volume_row (H r) (W r) (L r)) table;
     Status := smap (fun r => status_row (H r) (W r) (L r)) table;
     Optimal_Cardboard_Width :=
       smap (fun r => cardboard_row (H r) (W r)) table |}.

Definition has_column (c : string) : Prop :=
  exists j, position c (columns df) = Some j.

Definition count_status (label : string) (o : OutFrame) : Z :=
  sum (smap (String.eqb label) (Status o)).

Definition percent (count n : Z) : float :=
  if (n =? 0)%Z then 0
  else Py.float_of_Z count / Py.float_of_Z n * Py.float_of_Z 100.

(** The whole result of [process], from the row-at-a-time frame. *)
Definition rowwise_output : Output :=
  let o := rowwise_frame in
  let n := Z.of_nat (df_len df) in
  let ok := count_status "OK" o in
  let no_ok := count_status "No OK" o in
  {| df_out := o; total := n; ok_count := ok; no_ok_count := no_ok;
     ok_pct := percent ok n; no_ok_pct := percent no_ok n;
     summary_df := {| Total_Items := n; OK_Count := ok;
                      OK_pct := Py.round (percent ok n) 2;
                      No_OK_Count := no_ok;
                      No_OK_pct := Py.round (percent no_ok n) 2 |} |}.


End RowwiseDefinitions.

(** ** Tables used as examples *)

(** A parser that reads no text as a number. *)
Definition no_parser (s : string) : option float := None.

Definition sample_table : DataFrame :=
  {| columns := ["Item"; "H"; "W"; "L"]%string;
     rows := [ [Text "A1"; Num 10; Num 20; Num 14];
               [Text "A2"; Num 5; Num 10; Text "abc"];
               [Text "A3"; Num nan; Num 20; Num 10];
               [Text "A4"; Num 11; Num 22; Num 15];
               [Text "A5"; Num (-3); Num 0; Num (-1)] ] |}.


(** Four rows of which three fit the machine, and three rows of which one
    does. *)
Definition scenario_table : DataFrame :=
  {| columns := ["Item"; "H"; "W"; "L"]%string;
     rows := [ [Text "S1"; Num 10; Num 20; Num 14];
               [Text "S2"; Num 11; Num 22; Num 15];
               [Text "S3"; Num 1; Num 2; Num 3];
               [Text "S4"; Num 12; Num 2; Num 3] ] |}.

Definition thirds_table : DataFrame :=
  {| columns := ["Item"; "H"; "W"; "L"]%string;
     rows := [ [Text "T1"; Num 10; Num 20; Num 14];
               [Text "T2"; Num 10; Num 23; Num 14];
               [Text "T3"; Num 10; Num 20; Num 16] ] |}.



Definition run_sample (df : DataFrame) : Py.result Output :=
  process no_parser df "Item" "H" "W" "L".

Definition sample_output (df : DataFrame) : Output :=
  rowwise_output no_parser df "Item" "H" "W" "L".

(** ** Loading the upload *)

Module Upload.

Import Ascii.

(** What [st.file_uploader] hands over: the name of the file and its
    bytes. *)
Record UploadedFile : Type := {
  name : string;
  content : string
}.

(** [str.lower] on one character of the ASCII range: the letters A to Z
    go to a to z, every other character stays. *)
Definition lower_ascii (c : Ascii.ascii) : Ascii.ascii :=
  let n := Ascii.nat_of_ascii c in
  if (65 <=? n)%nat && (n <=? 90)%nat then Ascii.ascii_of_nat (n + 32)
  else c.

(** [s.lower()], for a name written in ASCII. *)
Fixpoint lower (s : string) : string :=
  match s with
  | EmptyString => EmptyString
  | String c s' => String (lower_ascii c) (lower s')
  end.

(** [s.endswith(suffix)]: [s] itself or one of its tails is [suffix]. *)
Fixpoint endswith (s suffix : string) : bool :=
  String.eqb s suffix ||
  match s with
  | EmptyString => false
  | String _ s' => endswith s' suffix
  end.

(** Every character is below 128. *)
Fixpoint ascii_only (s : string) : bool :=
  match s with
  | EmptyString => true
  | String c s' => (Ascii.nat_of_ascii c <? 128)%nat && ascii_only s'
  end.

Section Load.

(** [pd.read_csv] and [pd.read_excel]: the readers are the library's. *)
Variables read_csv read_excel : UploadedFile -> Py.result DataFrame.

Definition load_file (file : UploadedFile) : Py.result DataFrame :=
  if endswith (lower (name file)) ".csv" then read_csv file
  else read_excel file.

End Load.

(** A name that ends in a dot and the letters c, s, v in either case. *)
Definition csv_name (n : string) : Prop :=
  exists stem c s v,
    n = (stem ++ String "." (String c (String s (String v ""))))%string /\
    (c = "c" \/ c = "C")%char /\ (s = "s" \/ s = "S")%char /\
    (v = "v" \/ v = "V")%char.

End Upload.

(** A reader that fails with the name of the format, to tell the two
    readers apart in examples. *)
Definition failing_reader (format : string) (file : Upload.UploadedFile)
  : Py.result DataFrame :=
  Py.raise (Py.KeyError format).

(** ** Series lemmas *)

Section SeriesFacts.

Context {A B C D : Type}.

Lemma smap_smap (f : A -> B) (g : B -> C) (s : Series A) :
  smap g (smap f s) = smap (fun x => g (f x)) s.
Proof. unfold smap. rewrite map_map. reflexivity. Qed.

Lemma smap_ext (f g : A -> B) (s : Series A) :
  (forall x, f x = g x) -> smap f s = smap g s.
Proof.
  intros E. unfold smap. apply map_ext. intros e. now rewrite E.
Qed.

Lemma smap_length (f : A -> B) (s : Series A) : len (smap f s) = len s.
Proof. unfold len, smap. apply length_map. Qed.

Lemma szip_smap (h : B -> C -> D) (f : A -> B) (g : A -> C) (s : Series A) :
  szip h (smap f s) (smap g s) = smap (fun x => h (f x) (g x)) s.
Proof.
  unfold szip, smap. induction s as [|e s IH]; simpl; [reflexivity|].
  now rewrite IH.
Qed.

Lemma full_like_smap (f : A -> B) (s : Series A) (c : C) :
  full_like (smap f s) c = smap (fun _ => c) s.
Proof. unfold full_like, smap. rewrite map_map. reflexivity. Qed.

Lemma loc_get_smap (f : A -> B) (m : A -> bool) (s : Series A) :
  loc_get (smap f s) (smap m s) = smap f (filter (fun e => m (snd e)) s).
Proof.
  unfold loc_get, smap. induction s as [|e s IH]; simpl; [reflexivity|].
  destruct (m (snd e)); simpl; now rewrite IH.
Qed.

End SeriesFacts.

Lemma of_list_map {A B} (f : A -> B) (l : list A) :
  of_list (map f l) = smap f (of_list l).
Proof.
  unfold of_list, smap. rewrite length_map.
  generalize 0%nat. induction l as [|x l IH]; intros k; simpl; [reflexivity|].
  now rewrite IH.
Qed.

Lemma of_list_length {A} (l : list A) : len (of_list l) = List.length l.
Proof.
  unfold len, of_list. rewrite length_combine, length_seq. apply Nat.min_id.
Qed.

Lemma full_length {A B} (l : list A) (c : B) :
  full (List.length l) c = smap (fun _ => c) (of_list l).
Proof.
  unfold full. rewrite <- of_list_map. f_equal.
  induction l as [|x l IH]; simpl; [reflexivity|]. now rewrite IH.
Qed.

Lemma lookup_smap {A B} (f : A -> B) (s : Series A) (i : nat) :
  lookup i (smap f s) = option_map f (lookup i s).
Proof.
  induction s as [|[j x] s IH]; simpl; [reflexivity|].
  destruct (Nat.eqb i j); [reflexivity | exact IH].
Qed.

Lemma lookup_labelled {A} (l : list A) (k i : nat) :
  lookup (k + i) (combine (seq k (List.length l)) l) = nth_error l i.
Proof.
  revert k i. induction l as [|x l IH]; intros k i; simpl.
  - now destruct i.
  - destruct i as [|i].
    + now rewrite Nat.add_0_r, Nat.eqb_refl.
    + replace (Nat.eqb (k + S i) k) with false
        by (symmetry; apply Nat.eqb_neq; lia).
      replace (k + S i)%nat with (S k + i)%nat by lia. apply IH.
Qed.

Lemma lookup_of_list {A} (l : list A) (i : nat) :
  lookup i (of_list l) = nth_error l i.
Proof. exact (lookup_labelled l 0 i). Qed.

Lemma index_of_list {A} (l : list A) :
  index (of_list l) = seq 0 (List.length l).
Proof.
  unfold index, of_list. generalize 0%nat.
  induction l as [|x l IH]; intros k; simpl; [reflexivity|].
  now rewrite IH.
Qed.

(** Writing back, under a mask, values computed from the masked entries
    gives them to their own rows: the labels of a Series are distinct. *)
Lemma loc_set_series_smap {A B}
      (g r : A -> B) (m : A -> bool) (s : Series A) :
  NoDup (index s) ->
  loc_set_series (smap g s) (smap m s)
                 (smap r (filter (fun e => m (snd e)) s))
  = smap (fun x => if m x then r x else g x) s.
Proof.
  unfold loc_set_series. induction s as [|[i x] s IH]; intros ND; simpl;
    [reflexivity|].
  inversion ND as [|? ? Hi ND']; subst. f_equal.
  - destruct (m x) eqn:E; simpl; [|reflexivity].
    now rewrite Nat.eqb_refl.
  - rewrite <- (IH ND'). apply map_ext_in.
    intros [[j old] [j' b]] Hin.
    assert (Hj : In j (index s)).
    { apply in_combine_l in Hin. unfold smap in Hin.
      apply in_map_iff in Hin. destruct Hin as [e [He Hin]].
      inversion He; subst. unfold index. now apply in_map. }
    destruct b; [|reflexivity]. destruct (m x); simpl; [|reflexivity].
    destruct (Nat.eqb_spec j i) as [->|ne]; [contradiction|reflexivity].
Qed.

Lemma NoDup_index_of_list {A} (l : list A) : NoDup (index (of_list l)).
Proof. rewrite index_of_list. apply seq_NoDup. Qed.

(** ** Facts on binary64 arithmetic *)

Module FloatFacts.

Lemma is_nan_spec (x : float) :
  PrimFloat.is_nan x = true <-> Prim2SF x = S754_nan.
Proof.
  unfold PrimFloat.is_nan. rewrite eqb_spec. unfold SFeqb, SFcompare.
  destruct (Prim2SF x) as [s|s| |s m e]; try destruct s; simpl;
    rewrite ?Z.compare_refl, ?Pos.compare_cont_refl; simpl;
    split; intros H; congruence.
Qed.



Lemma SFadd_comm (x y : spec_float) :
  SFadd prec emax x y = SFadd prec emax y x.
Proof.
  destruct x as [sx|sx| |sx mx ex], y as [sy|sy| |sy my ey];
    try destruct sx; try destruct sy; try reflexivity.
  all: unfold SFadd; rewrite (Z.min_comm ey ex); f_equal; apply Z.add_comm.
Qed.

Lemma add_comm (x y : float) : x + y = y + x.
Proof.
  apply Prim2SF_inj. rewrite !add_spec. apply SFadd_comm.
Qed.







End FloatFacts.

(** ** The vectorised code, row by row *)

Arguments Py.float_of_Z : simpl never.
Arguments Py.str : simpl never.
Arguments Py.round : simpl never.

Lemma smap_id {A} (s : Series A) : smap (fun x => x) s = s.
Proof.
  unfold smap. induction s as [|[i x] s IH]; simpl; [reflexivity|].
  now rewrite IH.
Qed.

(** The two overwrites of [pick_cardboard], on one entry. *)
Lemma masked_bucket (x : float) :
  (if x <=? Py.float_of_Z (option_at 0) then Py.str (option_at 0)
   else if x <=? Py.float_of_Z (option_at 1) then Py.str (option_at 1)
        else "No Fit"%string)
  = bucket_of_wrap x.
Proof.
  unfold bucket_of_wrap, first_fit, CARDBOARD_OPTIONS, option_at. simpl.
  destruct (x <=? Py.float_of_Z 23); [reflexivity|].
  destruct (x <=? Py.float_of_Z 39); reflexivity.
Qed.

Lemma pick_cardboard_rowwise (ws hs : Series float) :
  pick_cardboard ws hs = smap bucket_of_wrap (szip PrimFloat.add ws hs).
Proof.
  unfold pick_cardboard, loc_set_scalar, sle.
  set (wrap := szip PrimFloat.add ws hs).
  rewrite <- (smap_id wrap) at 1.
  rewrite full_like_smap, !szip_smap.
  apply smap_ext. intros x. apply masked_bucket.
Qed.

Section Rowwise.

Variable parse_text : string -> option float.
Variable df : DataFrame.
Variables item_col height_col width_col length_col : string.

Lemma getitem_found (c : string) :
  has_column df c -> getitem df c = inr (smap (cell_of df c) (table df)).
Proof.
  intros [j Hj]. unfold getitem, table. rewrite Hj. unfold Py.ret.
  f_equal. rewrite of_list_map. apply smap_ext. intros r.
  unfold cell_of. now rewrite Hj.
Qed.

Lemma getitem_absent (c : string) :
  ~ has_column df c -> getitem df c = inl (Py.KeyError c).
Proof.
  intros H. unfold getitem.
  destruct (position c (columns df)) as [j|] eqn:E; [|reflexivity].
  exfalso. apply H. now exists j.
Qed.

Lemma has_column_dec (c : string) : {has_column df c} + {~ has_column df c}.
Proof.
  unfold has_column. destruct (position c (columns df)) as [j|].
  - left. now exists j.
  - right. intros [j Hj]. discriminate.
Defined.

(** The guarded percentage never divides by zero. *)
Lemma percentage_value (count n : Z) :
  percentage count n
  = inr (if (n =? 0)%Z then 0
         else Py.float_of_Z count / Py.float_of_Z n * Py.float_of_Z 100).
Proof.
  unfold percentage, Py.truthy, Py.truediv.
  destruct (n =? 0)%Z; reflexivity.
Qed.

Lemma frame_rowwise :
  let height :=
    to_numeric parse_text (smap (cell_of df height_col) (table df)) in
  let width :=
    to_numeric parse_text (smap (cell_of df width_col) (table df)) in
  let length :=
    to_numeric parse_text (smap (cell_of df length_col) (table df)) in
  let invalid := invalid_rows height width length in
  let valid_for_cardboard := snot (any_axis1 [isna height; isna width]) in
  {| Item_ID := smap (cell_of df item_col) (table df);
     Height := height; Width := width; Length := length;
     Volume :=
       where_ (szip PrimFloat.mul (szip PrimFloat.mul height width) length)
              (snot invalid) NA;
     Status :=
       loc_set_scalar (full (df_len df) "No OK"%string)
         (sand (sand (sand (sle height MAX_HEIGHT) (sle width MAX_WIDTH))
                     (sle length MAX_LENGTH))
               (snot invalid))
         "OK"%string;
     Optimal_Cardboard_Width :=
       loc_set_series (full (df_len df) "No Fit"%string) valid_for_cardboard
         (pick_cardboard (loc_get width valid_for_cardboard)
                         (loc_get height valid_for_cardboard)) |}
  = rowwise_frame parse_text df item_col height_col width_col length_col.
Proof.
  cbv zeta.
  unfold rowwise_frame, invalid_rows, to_numeric, isna, sle, sand, snot, where_,
    loc_set_scalar, df_len, table.
  rewrite !full_length. cbn [any_axis1].
  rewrite !smap_smap, !szip_smap, !smap_smap, !szip_smap.
  rewrite !loc_get_smap, pick_cardboard_rowwise, szip_smap, smap_smap.
  f_equal.
  - apply smap_ext. intros r. unfold volume_row, valid_row, notna, NA, dim.
    destruct (PrimFloat.is_nan (coerce parse_text (cell_of df height_col r))),
             (PrimFloat.is_nan (coerce parse_text (cell_of df width_col r))),
             (PrimFloat.is_nan (coerce parse_text (cell_of df length_col r)));
      reflexivity.
  - apply smap_ext. intros r.
    unfold status_row, fits_row, valid_row, notna, dim.
    destruct (PrimFloat.is_nan (coerce parse_text (cell_of df height_col r))),
             (PrimFloat.is_nan (coerce parse_text (cell_of df width_col r))),
             (PrimFloat.is_nan (coerce parse_text (cell_of df length_col r)));
      rewrite ?andb_false_r, ?andb_true_r; reflexivity.
  - etransitivity.
    + apply (@loc_set_series_smap _ _
               (fun _ => "No Fit"%string)
               (fun r => bucket_of_wrap (dim parse_text df width_col r
                                         + dim parse_text df height_col r))
               (fun r =>
                  negb (PrimFloat.is_nan (dim parse_text df height_col r)
                        || PrimFloat.is_nan (dim parse_text df width_col r)))).
      apply NoDup_index_of_list.
    + apply smap_ext. intros r. unfold cardboard_row, notna.
      destruct (PrimFloat.is_nan (dim parse_text df height_col r)),
               (PrimFloat.is_nan (dim parse_text df width_col r)); reflexivity.
Qed.

Lemma process_rowwise :
  has_column df item_col -> has_column df height_col ->
  has_column df width_col -> has_column df length_col ->
  process parse_text df item_col height_col width_col length_col
  = inr (rowwise_output parse_text df item_col height_col width_col
                        length_col).
Proof.
  intros Hi Hh Hw Hl. unfold process.
  rewrite (getitem_found item_col Hi), (getitem_found height_col Hh),
    (getitem_found width_col Hw), (getitem_found length_col Hl).
  cbn [Py.bind]. cbv zeta. rewrite frame_rowwise.
  rewrite !percentage_value. cbn [Py.bind]. unfold Py.ret, rowwise_output.
  assert (E : out_len (rowwise_frame parse_text df item_col height_col
                                     width_col length_col)
              = df_len df).
  { unfold out_len, rowwise_frame. cbn [Item_ID].
    rewrite smap_length. apply of_list_length. }
  rewrite E. reflexivity.
Qed.

(** Reading column [c] in the unfolded run [H]: found, or [KeyError]. *)
Ltac read_column H c :=
  let Hc := fresh "Hc" in
  destruct (has_column_dec c) as [Hc|Hc];
  [rewrite (getitem_found c Hc) in H
  |rewrite (getitem_absent c Hc) in H].


Lemma process_returns (out : Output) :
  process parse_text df item_col height_col width_col length_col = inr out ->
  has_column df item_col /\ has_column df height_col /\
  has_column df width_col /\ has_column df length_col /\
  out = rowwise_output parse_text df item_col height_col width_col
                       length_col.
Proof.
  intros H. pose proof H as H'. unfold process in H'.
  read_column H' item_col; [|discriminate].
  read_column H' height_col; [|discriminate].
  read_column H' width_col; [|discriminate].
  read_column H' length_col; [|discriminate].
  rewrite process_rowwise in H by assumption. inversion H. tauto.
Qed.

End Rowwise.

(** ** Properties of the classification *)

Lemma smap_szip {A B C D} (f : C -> D) (g : A -> B -> C)
      (a : Series A) (b : Series B) :
  smap f (szip g a b) = szip (fun x y => f (g x y)) a b.
Proof. unfold smap, szip. rewrite map_map. reflexivity. Qed.

Lemma bucket_of_wrap_ordered (x : float) :
  bucket_of_wrap x = ordered_bucket CARDBOARD_OPTIONS x.
Proof.
  unfold bucket_of_wrap, first_fit, CARDBOARD_OPTIONS. simpl.
  destruct (x <=? Py.float_of_Z 23); [reflexivity|].
  destruct (x <=? Py.float_of_Z 39); reflexivity.
Qed.


Lemma float_of_Z_23 : Py.float_of_Z 23 = 23.
Proof. reflexivity. Qed.

Lemma float_of_Z_39 : Py.float_of_Z 39 = 39.
Proof. reflexivity. Qed.

Lemma bucket_of_wrap_cases (x : float) :
  bucket_of_wrap x
  = if x <=? 23 then "23"%string
    else if x <=? 39 then "39"%string else "No Fit"%string.
Proof.
  rewrite <- float_of_Z_23, <- float_of_Z_39.
  unfold bucket_of_wrap, first_fit, CARDBOARD_OPTIONS. simpl.
  destruct (x <=? Py.float_of_Z 23); [reflexivity|].
  destruct (x <=? Py.float_of_Z 39); reflexivity.
Qed.





Section Claims.

Variable parse_text : string -> option float.

(** What [process] leaves in row [i] of every output column. *)
Lemma row_view df ic hc wc lc out i r :
  process parse_text df ic hc wc lc = inr out ->
  nth_error (rows df) i = Some r ->
  let h := dim parse_text df hc r in
  let w := dim parse_text df wc r in
  let l := dim parse_text df lc r in
  lookup i (Height (df_out out)) = Some h /\
  lookup i (Width (df_out out)) = Some w /\
  lookup i (Length (df_out out)) = Some l /\
  lookup i (Volume (df_out out)) = Some (volume_row h w l) /\
  lookup i (Status (df_out out)) = Some (status_row h w l) /\
  lookup i (Optimal_Cardboard_Width (df_out out))
  = Some (cardboard_row h w).
Proof.
  intros Hrun Hr. apply process_returns in Hrun.
  destruct Hrun as (_ & _ & _ & _ & ->).
  unfold rowwise_output, rowwise_frame, table. cbn [df_out Height Width
    Length Volume Status Optimal_Cardboard_Width].
  rewrite !lookup_smap, !lookup_of_list, Hr. cbn [option_map].
  repeat split; reflexivity.
Qed.

(** C1: for every row, the machine-fit status is "OK" if and only if all
    three dimensions parsed to numbers and height <= MAX_HEIGHT, width <=
    MAX_WIDTH and length <= MAX_LENGTH; the bounds are inclusive, every
    other row is "No OK", and there is no third status. *)
Theorem machine_fit_ok_iff df ic hc wc lc out i r :
  process parse_text df ic hc wc lc = inr out ->
  nth_error (rows df) i = Some r ->
  let h := dim parse_text df hc r in
  let w := dim parse_text df wc r in
  let l := dim parse_text df lc r in
  exists s,
    lookup i (Status (df_out out)) = Some s /\
    (s = "OK"%string <->
     (notna h = true /\ notna w = true /\ notna l = true) /\
     (h <=? Py.float_of_Z MAX_HEIGHT) = true /\
     (w <=? Py.float_of_Z MAX_WIDTH) = true /\
     (l <=? Py.float_of_Z MAX_LENGTH) = true) /\
    (s = "OK"%string \/ s = "No OK"%string) /\
    (h = Py.float_of_Z MAX_HEIGHT -> w = Py.float_of_Z MAX_WIDTH ->
     l = Py.float_of_Z MAX_LENGTH -> s = "OK"%string).
Proof.
  intros Hrun Hr h w l.
  destruct (@row_view df ic hc wc lc out i r Hrun Hr)
    as (_ & _ & _ & _ & Hs & _).
  fold h w l in Hs. exists (status_row h w l). split; [exact Hs|].
  unfold status_row, fits_row, valid_row.
  split; [|split].
  - destruct ((h <=? Py.float_of_Z MAX_HEIGHT)
              && (w <=? Py.float_of_Z MAX_WIDTH)
              && (l <=? Py.float_of_Z MAX_LENGTH)
              && (notna h && notna w && notna l)) eqn:E.
    + rewrite !andb_true_iff in E. tauto.
    + split; [discriminate|].
      intros [[H1 [H2 H3]] [H4 [H5 H6]]].
      rewrite H1, H2, H3, H4, H5, H6 in E. discriminate.
  - destruct ((h <=? Py.float_of_Z MAX_HEIGHT)
              && (w <=? Py.float_of_Z MAX_WIDTH)
              && (l <=? Py.float_of_Z MAX_LENGTH)
              && (notna h && notna w && notna l)); [left|right];
      reflexivity.
  - intros -> -> ->. reflexivity.
Qed.










End Claims.

(** C7: the masking of [pick_cardboard] (every entry set to "No Fit", then
    the entries with wrap <= the larger width overwritten, then those with
    wrap <= the smaller width) gives every row the bucket of the ordered
    evaluation, smallest width first, first match wins. *)
Theorem masking_refines_ordered_evaluation (ws hs : Series float) :
  pick_cardboard ws hs = pick_cardboard_rows CARDBOARD_OPTIONS ws hs.
Proof.
  rewrite pick_cardboard_rowwise, smap_szip. unfold pick_cardboard_rows.
  unfold szip. apply map_ext. intros e. now rewrite bucket_of_wrap_ordered.
Qed.

(** ** The properties on the example tables *)

Lemma run_sample_table :
  run_sample sample_table = inr (sample_output sample_table).
Proof. vm_compute. reflexivity. Defined.



(** Row 0 of the sample, 10 x 20 x 14, is "OK". *)
Lemma machine_fit_ok_iff_witness :
  run_sample sample_table = inr (sample_output sample_table) /\
  nth_error (rows sample_table) 0
  = Some [Text "A1"; Num 10; Num 20; Num 14] /\
  lookup 0 (Status (df_out (sample_output sample_table)))
  = Some "OK"%string.
Proof.
  split; [exact run_sample_table|]. split; [reflexivity|].
  destruct (machine_fit_ok_iff no_parser sample_table "Item" "H" "W" "L"
              (sample_output sample_table) 0
              [Text "A1"; Num 10; Num 20; Num 14]
              run_sample_table eq_refl) as (s & Hs & Hiff & _).
  rewrite Hs. f_equal. apply Hiff. vm_compute. tauto.
Defined.








(** What the summary of the sample holds: 60 and 40 per cent. *)
Example sample_summary :
  summary_df (sample_output sample_table)
  = {| Total_Items := 5; OK_Count := 3; OK_pct := 60;
       No_OK_Count := 2; No_OK_pct := 40 |}.
Proof. vm_compute. reflexivity. Qed.

(** Three of four rows "OK": 75 and 25 per cent. *)
Example scenario_summary :
  run_sample scenario_table
  = inr (sample_output scenario_table) /\
  summary_df (sample_output scenario_table)
  = {| Total_Items := 4; OK_Count := 3; OK_pct := 75;
       No_OK_Count := 1; No_OK_pct := 25 |}.
Proof. vm_compute. split; reflexivity. Qed.

(** One of three rows "OK": 33.33 and 66.67 per cent, as the floats
    nearest to 3333 / 100 and 6667 / 100. *)
Example thirds_summary :
  run_sample thirds_table = inr (sample_output thirds_table) /\
  summary_df (sample_output thirds_table)
  = {| Total_Items := 3; OK_Count := 1;
       OK_pct := Py.float_of_Z 3333 / Py.float_of_Z 100;
       No_OK_Count := 2;
       No_OK_pct := Py.float_of_Z 6667 / Py.float_of_Z 100 |}.
Proof. vm_compute. split; reflexivity. Qed.



(** ** Further properties of the program *)

(** *** Order and NaN in binary64 *)

Module FloatOrder.

Lemma SFleb_trans (x y z : spec_float) :
  SFleb x y = true -> SFleb y z = true -> SFleb x z = true.
Proof.
  unfold SFleb, SFcompare.
  destruct x as [sx|sx| |sx mx ex], y as [sy|sy| |sy my ey],
           z as [sz|sz| |sz mz ez];
    try destruct sx; try destruct sy; try destruct sz;
    try reflexivity; try discriminate; try (intros; assumption).
  all: change (Pos.compare_cont Eq) with Pos.compare.
  all: destruct (Z.compare_spec ex ey), (Z.compare_spec ey ez),
         (Z.compare_spec ex ez);
    try discriminate; try reflexivity; try lia; subst.
  all: destruct (Pos.compare_spec mx my), (Pos.compare_spec my mz),
         (Pos.compare_spec mx mz);
    simpl; try discriminate; try reflexivity; lia.
Qed.

Lemma leb_trans (x y z : float) :
  (x <=? y) = true -> (y <=? z) = true -> (x <=? z) = true.
Proof. rewrite !leb_spec. apply SFleb_trans. Qed.

(** No comparison holds with NaN on its left. *)
Lemma leb_nan_l (x y : float) :
  PrimFloat.is_nan x = true -> (x <=? y) = false.
Proof.
  intros H. apply FloatFacts.is_nan_spec in H.
  rewrite leb_spec, H. reflexivity.
Qed.

(** A sum with a NaN operand is NaN. *)
Lemma add_nan (x y : float) :
  PrimFloat.is_nan x = true \/ PrimFloat.is_nan y = true ->
  PrimFloat.is_nan (x + y) = true.
Proof.
  intros H. apply FloatFacts.is_nan_spec. rewrite add_spec.
  destruct H as [H|H]; apply FloatFacts.is_nan_spec in H; rewrite H;
    [reflexivity|]. now destruct (Prim2SF x).
Qed.

End FloatOrder.

Lemma leb_notna (x y : float) : (x <=? y) = true -> notna x = true.
Proof.
  intros H. unfold notna. destruct (PrimFloat.is_nan x) eqn:E; [|reflexivity].
  rewrite (FloatOrder.leb_nan_l x y E) in H. discriminate.
Qed.

Lemma add_notna (x y : float) :
  notna (x + y) = true -> notna x = true /\ notna y = true.
Proof.
  unfold notna. intros H.
  destruct (PrimFloat.is_nan x) eqn:Ex;
    [rewrite FloatOrder.add_nan in H by tauto; discriminate|].
  destruct (PrimFloat.is_nan y) eqn:Ey;
    [rewrite FloatOrder.add_nan in H by tauto; discriminate|].
  split; reflexivity.
Qed.

(** *** Columns of a table, as lists *)

Lemma index_smap {A B} (f : A -> B) (s : Series A) :
  index (smap f s) = index s.
Proof. unfold index, smap. rewrite map_map. reflexivity. Qed.

Lemma values_smap {A B} (f : A -> B) (s : Series A) :
  values (smap f s) = map f (values s).
Proof. unfold values, smap. rewrite !map_map. reflexivity. Qed.

Lemma values_of_list {A} (l : list A) : values (of_list l) = l.
Proof.
  unfold values, of_list. generalize 0%nat.
  induction l as [|x l IH]; intros k; simpl; [reflexivity|].
  now rewrite IH.
Qed.

Lemma sum_smap_of_list {A} (p : A -> bool) (l : list A) :
  sum (smap p (of_list l)) = Z.of_nat (List.length (filter p l)).
Proof.
  unfold sum. rewrite values_smap, values_of_list. f_equal.
  induction l as [|x l IH]; simpl; [reflexivity|].
  destruct (p x); simpl; now rewrite IH.
Qed.

Lemma status_row_ok (h w l : float) :
  String.eqb "OK" (status_row h w l) = fits_row h w l && valid_row h w l.
Proof.
  unfold status_row. now destruct (fits_row h w l && valid_row h w l).
Qed.

Lemma status_row_no_ok (h w l : float) :
  String.eqb "No OK" (status_row h w l)
  = negb (fits_row h w l && valid_row h w l).
Proof.
  unfold status_row. now destruct (fits_row h w l && valid_row h w l).
Qed.

Lemma status_row_ok_inv (h w l : float) :
  status_row h w l = "OK"%string ->
  fits_row h w l = true /\ valid_row h w l = true.
Proof.
  unfold status_row.
  destruct (fits_row h w l && valid_row h w l) eqn:E; [|discriminate].
  intros _. now apply andb_prop.
Qed.

Lemma bucket_of_wrap_nan (x : float) :
  PrimFloat.is_nan x = true -> bucket_of_wrap x = "No Fit"%string.
Proof.
  intros H. unfold bucket_of_wrap, first_fit, CARDBOARD_OPTIONS. simpl.
  now rewrite !(FloatOrder.leb_nan_l x _ H).
Qed.

Lemma cardboard_row_unmasked (h w : float) :
  cardboard_row h w = bucket_of_wrap (w + h).
Proof.
  unfold cardboard_row, notna.
  destruct (PrimFloat.is_nan h) eqn:Eh;
    [symmetry; apply bucket_of_wrap_nan, FloatOrder.add_nan; tauto|].
  destruct (PrimFloat.is_nan w) eqn:Ew;
    [symmetry; apply bucket_of_wrap_nan, FloatOrder.add_nan; tauto|].
  reflexivity.
Qed.

Lemma cardboard_row_labels (h w : float) :
  cardboard_row h w = "23"%string \/ cardboard_row h w = "39"%string
  \/ cardboard_row h w = "No Fit"%string.
Proof.
  rewrite cardboard_row_unmasked, bucket_of_wrap_cases.
  destruct (w + h <=? 23); [tauto|]. destruct (w + h <=? 39); tauto.
Qed.



Section Further.

Variable parse_text : string -> option float.

(** X1: the output table has one row per input row, in the input order
    and under the labels 0, 1, ...: every column has that index, the item
    identifiers pass through unchanged, and the three dimension columns
    hold the coerced cells. *)
Theorem output_table_assembly df ic hc wc lc out :
  process parse_text df ic hc wc lc = inr out ->
  let labels := seq 0 (List.length (rows df)) in
  let o := df_out out in
  out_len o = List.length (rows df) /\
  (index (Item_ID o) = labels /\ index (Height o) = labels /\
   index (Width o) = labels /\ index (Length o) = labels /\
   index (Volume o) = labels /\ index (Status o) = labels /\
   index (Optimal_Cardboard_Width o) = labels) /\
  values (Item_ID o) = map (cell_of df ic) (rows df) /\
  values (Height o) = map (dim parse_text df hc) (rows df) /\
  values (Width o) = map (dim parse_text df wc) (rows df) /\
  values (Length o) = map (dim parse_text df lc) (rows df).
Proof.
  intros Hrun. apply process_returns in Hrun.
  destruct Hrun as (_ & _ & _ & _ & ->).
  unfold rowwise_output, rowwise_frame, table, out_len, len.
  cbn [df_out Item_ID Height Width Length Volume Status
       Optimal_Cardboard_Width].
  rewrite !index_smap, !values_smap, index_of_list, values_of_list.
  unfold smap. rewrite length_map.
  fold (len (of_list (rows df))). rewrite of_list_length.
  repeat split; reflexivity.
Qed.

(** X2: a run over a table that lacks selected columns raises the
    [KeyError] of the first absent one, in the order item, height, width,
    length. *)
Theorem key_error_names_first_absent_column df ic hc wc lc :
  (~ has_column df ic ->
   process parse_text df ic hc wc lc = inl (Py.KeyError ic)) /\
  (has_column df ic -> ~ has_column df hc ->
   process parse_text df ic hc wc lc = inl (Py.KeyError hc)) /\
  (has_column df ic -> has_column df hc -> ~ has_column df wc ->
   process parse_text df ic hc wc lc = inl (Py.KeyError wc)) /\
  (has_column df ic -> has_column df hc -> has_column df wc ->
   ~ has_column df lc ->
   process parse_text df ic hc wc lc = inl (Py.KeyError lc)).
Proof.
  unfold process. split; [|split; [|split]].
  - intros Hi. now rewrite (getitem_absent df ic Hi).
  - intros Hi Hh.
    now rewrite (getitem_found df ic Hi), (getitem_absent df hc Hh).
  - intros Hi Hh Hw.
    now rewrite (getitem_found df ic Hi), (getitem_found df hc Hh),
      (getitem_absent df wc Hw).
  - intros Hi Hh Hw Hl.
    now rewrite (getitem_found df ic Hi), (getitem_found df hc Hh),
      (getitem_found df wc Hw), (getitem_absent df lc Hl).
Qed.

(** X3: ok_count is the number of input rows whose three dimensions
    parsed and are within the limits, no_ok_count the number of the other
    rows, and both lie between 0 and total. *)
Theorem counts_are_row_counts df ic hc wc lc out :
  process parse_text df ic hc wc lc = inr out ->
  let fit r :=
    fits_row (dim parse_text df hc r) (dim parse_text df wc r)
             (dim parse_text df lc r)
    && valid_row (dim parse_text df hc r) (dim parse_text df wc r)
                 (dim parse_text df lc r) in
  ok_count out = Z.of_nat (List.length (filter fit (rows df))) /\
  no_ok_count out
  = Z.of_nat (List.length (filter (fun r => negb (fit r)) (rows df))) /\
  (0 <= ok_count out <= total out)%Z /\
  (0 <= no_ok_count out <= total out)%Z.
Proof.
  intros Hrun fit. apply process_returns in Hrun.
  destruct Hrun as (_ & _ & _ & _ & ->).
  unfold rowwise_output, count_status, rowwise_frame, table, df_len.
  cbn [ok_count no_ok_count total df_out Status].
  rewrite !smap_smap, !sum_smap_of_list.
  rewrite (filter_ext _ fit (fun r => status_row_ok _ _ _)).
  rewrite (filter_ext _ (fun r => negb (fit r))
             (fun r => status_row_no_ok _ _ _)).
  pose proof (filter_length_le fit (rows df)).
  pose proof (filter_length_le (fun r => negb (fit r)) (rows df)).
  repeat split; lia.
Qed.


(** X5: every input row gets exactly one bucket, and it is one of the
    three labels "23", "39" and "No Fit"; no label is written past the
    last row. *)
Theorem every_row_gets_one_bucket df ic hc wc lc out i :
  process parse_text df ic hc wc lc = inr out ->
  (i < List.length (rows df) ->
   exists b,
     lookup i (Optimal_Cardboard_Width (df_out out)) = Some b /\
     (b = "23"%string \/ b = "39"%string \/ b = "No Fit"%string)) /\
  (List.length (rows df) <= i ->
   lookup i (Optimal_Cardboard_Width (df_out out)) = None).
Proof.
  intros Hrun. split.
  - intros Hi. destruct (nth_error (rows df) i) as [r|] eqn:Hr;
      [|apply nth_error_None in Hr; lia].
    destruct (@row_view parse_text df ic hc wc lc out i r Hrun Hr)
      as (_ & _ & _ & _ & _ & Hb).
    eexists. split; [exact Hb|]. apply cardboard_row_labels.
  - intros Hi. apply process_returns in Hrun.
    destruct Hrun as (_ & _ & _ & _ & ->).
    unfold rowwise_output, rowwise_frame, table.
    cbn [df_out Optimal_Cardboard_Width].
    rewrite lookup_smap, lookup_of_list.
    now rewrite (proj2 (nth_error_None (rows df) i) Hi).
Qed.

(** X6: the machine fit is monotone: where a row is "OK", a row whose
    three dimensions are numbers not above its own, each to each, is "OK"
    as well. *)
Theorem machine_fit_monotone
        df1 ic1 hc1 wc1 lc1 out1 i1 r1
        df2 ic2 hc2 wc2 lc2 out2 i2 r2 :
  process parse_text df1 ic1 hc1 wc1 lc1 = inr out1 ->
  process parse_text df2 ic2 hc2 wc2 lc2 = inr out2 ->
  nth_error (rows df1) i1 = Some r1 ->
  nth_error (rows df2) i2 = Some r2 ->
  (dim parse_text df2 hc2 r2 <=? dim parse_text df1 hc1 r1) = true ->
  (dim parse_text df2 wc2 r2 <=? dim parse_text df1 wc1 r1) = true ->
  (dim parse_text df2 lc2 r2 <=? dim parse_text df1 lc1 r1) = true ->
  lookup i1 (Status (df_out out1)) = Some "OK"%string ->
  lookup i2 (Status (df_out out2)) = Some "OK"%string.
Proof.
  intros Hrun1 Hrun2 Hr1 Hr2 Lh Lw Ll Hok.
  destruct (@row_view parse_text df1 ic1 hc1 wc1 lc1 out1 i1 r1 Hrun1 Hr1)
    as (_ & _ & _ & _ & Hs1 & _).
  destruct (@row_view parse_text df2 ic2 hc2 wc2 lc2 out2 i2 r2 Hrun2 Hr2)
    as (_ & _ & _ & _ & Hs2 & _).
  rewrite Hs1 in Hok. injection Hok as Hok.
  apply status_row_ok_inv in Hok. destruct Hok as [Hfit _].
  unfold fits_row in Hfit. rewrite !andb_true_iff in Hfit.
  destruct Hfit as [[Fh Fw] Fl].
  rewrite Hs2. f_equal. unfold status_row, fits_row, valid_row.
  rewrite (FloatOrder.leb_trans _ _ _ Lh Fh),
    (FloatOrder.leb_trans _ _ _ Lw Fw), (FloatOrder.leb_trans _ _ _ Ll Fl),
    (leb_notna _ _ Lh), (leb_notna _ _ Lw), (leb_notna _ _ Ll).
  reflexivity.
Qed.


(** X8: the mask [valid_for_cardboard] changes nothing: the column
    "Optimal Cardboard Width" is [pick_cardboard] of the whole width and
    height columns, a missing height or width giving "No Fit" through the
    comparisons of [pick_cardboard] themselves. *)
Theorem cardboard_column_is_unmasked_pick df ic hc wc lc out :
  process parse_text df ic hc wc lc = inr out ->
  Optimal_Cardboard_Width (df_out out)
  = pick_cardboard (Width (df_out out)) (Height (df_out out)).
Proof.
  intros Hrun. apply process_returns in Hrun.
  destruct Hrun as (_ & _ & _ & _ & ->).
  unfold rowwise_output, rowwise_frame.
  cbn [df_out Optimal_Cardboard_Width Width Height].
  rewrite pick_cardboard_rowwise, szip_smap, smap_smap.
  apply smap_ext. intros r. apply cardboard_row_unmasked.
Qed.

End Further.

(** *** [pick_cardboard] on its own *)




Section ItemColumn.

Variable parse_text : string -> option float.

(** X11: the item identifiers play no part in the classification: two
    runs over one table that differ in the column chosen for "Item ID"
    give the same seven columns but for "Item ID", and the same counts and
    percentages. *)
Theorem item_column_is_passed_through df ic ic' hc wc lc out out' :
  process parse_text df ic hc wc lc = inr out ->
  process parse_text df ic' hc wc lc = inr out' ->
  (Height (df_out out) = Height (df_out out') /\
   Width (df_out out) = Width (df_out out') /\
   Length (df_out out) = Length (df_out out') /\
   Volume (df_out out) = Volume (df_out out') /\
   Status (df_out out) = Status (df_out out') /\
   Optimal_Cardboard_Width (df_out out)
   = Optimal_Cardboard_Width (df_out out')) /\
  total out = total out' /\ ok_count out = ok_count out' /\
  no_ok_count out = no_ok_count out' /\
  summary_df out = summary_df out'.
Proof.
  intros H H'.
  apply process_returns in H. destruct H as (_ & _ & _ & _ & ->).
  apply process_returns in H'. destruct H' as (_ & _ & _ & _ & ->).
  repeat split; reflexivity.
Qed.

End ItemColumn.

(** *** Loading the upload *)

Section UploadFacts.

Import Ascii.
Import Upload.

Lemma lower_ascii_dot (a : ascii) : lower_ascii a = "."%char -> a = "."%char.
Proof.
  destruct a as [[] [] [] [] [] [] [] []]; vm_compute; intros H;
    try discriminate H; reflexivity.
Qed.

Lemma lower_ascii_c (a : ascii) :
  lower_ascii a = "c"%char -> (a = "c" \/ a = "C")%char.
Proof.
  destruct a as [[] [] [] [] [] [] [] []]; vm_compute; intros H;
    try discriminate H; tauto.
Qed.

Lemma lower_ascii_s (a : ascii) :
  lower_ascii a = "s"%char -> (a = "s" \/ a = "S")%char.
Proof.
  destruct a as [[] [] [] [] [] [] [] []]; vm_compute; intros H;
    try discriminate H; tauto.
Qed.

Lemma lower_ascii_v (a : ascii) :
  lower_ascii a = "v"%char -> (a = "v" \/ a = "V")%char.
Proof.
  destruct a as [[] [] [] [] [] [] [] []]; vm_compute; intros H;
    try discriminate H; tauto.
Qed.

Lemma lower_is_csv (n : string) :
  lower n = ".csv"%string <->
  exists c s v,
    n = String "." (String c (String s (String v ""))) /\
    (c = "c" \/ c = "C")%char /\ (s = "s" \/ s = "S")%char /\
    (v = "v" \/ v = "V")%char.
Proof.
  split.
  - destruct n as [|a0 [|a1 [|a2 [|a3 [|a4 n]]]]]; simpl; intros H;
      try discriminate H.
    injection H as H0 H1 H2 H3.
    apply lower_ascii_dot in H0. subst a0.
    exists a1, a2, a3.
    auto using lower_ascii_c, lower_ascii_s, lower_ascii_v.
  - intros (c & s & v & -> & [-> | ->] & [-> | ->] & [-> | ->]);
      reflexivity.
Qed.

Lemma endswith_lower_csv (n : string) :
  endswith (lower n) ".csv" = true <-> csv_name n.
Proof.
  induction n as [|a n IH].
  - split; [discriminate|].
    intros ([|b stem] & c & s & v & H & _); discriminate H.
  - cbn [lower endswith]. rewrite orb_true_iff, String.eqb_eq, IH.
    change (String (lower_ascii a) (lower n)) with (lower (String a n)).
    rewrite lower_is_csv. split.
    + intros [(c & s & v & H & Hc & Hs & Hv)
             |(stem & c & s & v & H & Hc & Hs & Hv)].
      * exists ""%string, c, s, v. auto.
      * exists (String a stem), c, s, v. subst n. auto.
    + intros ([|b stem] & c & s & v & H & Hc & Hs & Hv).
      * left. exists c, s, v. auto.
      * right. injection H as -> ->. exists stem, c, s, v. auto.
Qed.

(** X9: [load_file] hands a file whose ASCII name ends in ".csv", in
    whatever case of the three letters, to [read_csv], and every other
    file to [read_excel]; it rejects no name itself. *)
Theorem load_file_dispatch
        (read_csv read_excel : UploadedFile -> Py.result DataFrame)
        (file : UploadedFile) :
  ascii_only (name file) = true ->
  (csv_name (name file) ->
   load_file read_csv read_excel file = read_csv file) /\
  (~ csv_name (name file) ->
   load_file read_csv read_excel file = read_excel file).
Proof.
  intros _. unfold load_file.
  destruct (endswith (lower (name file)) ".csv") eqn:E.
  - split; [reflexivity|]. intros H. exfalso. apply H.
    now apply endswith_lower_csv.
  - split; [|reflexivity]. intros H. apply endswith_lower_csv in H.
    congruence.
Qed.

End UploadFacts.

(** ** The further properties on the example tables *)

Lemma run_scenario_table :
  run_sample scenario_table = inr (sample_output scenario_table).
Proof. vm_compute. reflexivity. Defined.



(** The output of the sample keeps its five item identifiers in order. *)
Lemma output_table_assembly_witness :
  run_sample sample_table = inr (sample_output sample_table) /\
  index (Status (df_out (sample_output sample_table))) = [0; 1; 2; 3; 4]%nat /\
  values (Item_ID (df_out (sample_output sample_table)))
  = [Text "A1"; Text "A2"; Text "A3"; Text "A4"; Text "A5"].
Proof.
  split; [exact run_sample_table|].
  destruct (output_table_assembly no_parser sample_table "Item" "H" "W" "L"
              (sample_output sample_table) run_sample_table)
    as (_ & (_ & _ & _ & _ & _ & Hidx & _) & Hid & _).
  split; [exact Hidx|exact Hid].
Defined.

(** Three rows of the sample are within the limits, two are not. *)
Lemma counts_are_row_counts_witness :
  run_sample sample_table = inr (sample_output sample_table) /\
  ok_count (sample_output sample_table) = 3%Z /\
  no_ok_count (sample_output sample_table) = 2%Z.
Proof.
  split; [exact run_sample_table|].
  destruct (counts_are_row_counts no_parser sample_table "Item" "H" "W" "L"
              (sample_output sample_table) run_sample_table)
    as (Hok & Hno & _).
  split; [exact Hok|exact Hno].
Defined.


(** Row 2 of the sample, without a height, has the bucket "No Fit", and
    there is no row 5. *)
Lemma every_row_gets_one_bucket_witness :
  run_sample sample_table = inr (sample_output sample_table) /\
  (exists b,
     lookup 2 (Optimal_Cardboard_Width (df_out (sample_output sample_table)))
     = Some b /\
     (b = "23"%string \/ b = "39"%string \/ b = "No Fit"%string)) /\
  lookup 5 (Optimal_Cardboard_Width (df_out (sample_output sample_table)))
  = None.
Proof.
  split; [exact run_sample_table|]. split.
  - apply (every_row_gets_one_bucket no_parser sample_table
             "Item" "H" "W" "L" (sample_output sample_table) 2
             run_sample_table).
    simpl. lia.
  - apply (every_row_gets_one_bucket no_parser sample_table
             "Item" "H" "W" "L" (sample_output sample_table) 5
             run_sample_table).
    simpl. lia.
Defined.

(** Row 2 of the scenario, 1 x 2 x 3, is below its row 0, 10 x 20 x 14,
    which is "OK". *)
Lemma machine_fit_monotone_witness :
  lookup 0 (Status (df_out (sample_output scenario_table)))
  = Some "OK"%string /\
  lookup 2 (Status (df_out (sample_output scenario_table)))
  = Some "OK"%string.
Proof.
  assert (H0 : lookup 0 (Status (df_out (sample_output scenario_table)))
               = Some "OK"%string) by reflexivity.
  split; [exact H0|].
  exact (machine_fit_monotone no_parser
           scenario_table "Item" "H" "W" "L"
           (sample_output scenario_table) 0
           [Text "S1"; Num 10; Num 20; Num 14]
           scenario_table "Item" "H" "W" "L"
           (sample_output scenario_table) 2
           [Text "S3"; Num 1; Num 2; Num 3]
           run_scenario_table run_scenario_table eq_refl eq_refl
           eq_refl eq_refl eq_refl H0).
Defined.


(** On the sample the bucket column is [pick_cardboard] of the whole
    width and height columns. *)
Lemma cardboard_column_is_unmasked_pick_witness :
  run_sample sample_table = inr (sample_output sample_table) /\
  Optimal_Cardboard_Width (df_out (sample_output sample_table))
  = pick_cardboard (Width (df_out (sample_output sample_table)))
                   (Height (df_out (sample_output sample_table))).
Proof.
  split; [exact run_sample_table|].
  exact (cardboard_column_is_unmasked_pick no_parser sample_table
           "Item" "H" "W" "L" (sample_output sample_table)
           run_sample_table).
Defined.


Lemma run_sample_table_by_height :
  process no_parser sample_table "H" "H" "W" "L"
  = inr (rowwise_output no_parser sample_table "H" "H" "W" "L").
Proof. vm_compute. reflexivity. Defined.

(** The sample with the height column taken for the identifiers has the
    same statuses. *)
Lemma item_column_is_passed_through_witness :
  Status (df_out (sample_output sample_table))
  = Status (df_out (rowwise_output no_parser sample_table "H" "H" "W" "L")).
Proof.
  destruct (item_column_is_passed_through no_parser sample_table
              "Item" "H" "H" "W" "L" _ _
              run_sample_table run_sample_table_by_height)
    as ((_ & _ & _ & _ & Hst & _) & _).
  exact Hst.
Defined.

Section UploadExample.

Import Ascii.

(** "Items.CSV" goes to the CSV reader, "items.xlsx" to the Excel
    reader. *)
Lemma load_file_dispatch_witness :
  Upload.load_file (failing_reader "csv") (failing_reader "excel")
    {| Upload.name := "Items.CSV"; Upload.content := "" |}
  = inl (Py.KeyError "csv") /\
  Upload.load_file (failing_reader "csv") (failing_reader "excel")
    {| Upload.name := "items.xlsx"; Upload.content := "" |}
  = inl (Py.KeyError "excel").
Proof.
  split.
  - apply (load_file_dispatch (failing_reader "csv")
             (failing_reader "excel")
             {| Upload.name := "Items.CSV"; Upload.content := "" |}
             eq_refl).
    exists "Items"%string, "C"%char, "S"%char, "V"%char.
    repeat split; tauto.
  - reflexivity.
Defined.

End UploadExample.
